(** * Authorization dependencies of [app/shared/dependencies.py]

    A shallow embedding of the authentication and authorization
    dependencies (principal resolution from a bearer token, the numeric
    role gate and the granular permission check), and the properties
    the design document states about them.

    Python integers are [Z]; strings are [string]; a dict is a [gmap];
    a table of the database is the list of its rows, in the order the
    database returns them, so that [.filter(...).first()] is [find].
    Code that reads the database and may raise is written in a small
    state-and-exception monad over the persisted tables. *)

From Stdlib Require Import ZArith Lia List.
From stdpp Require Import gmap strings list pretty.

Local Open Scope string_scope.
Local Open Scope Z_scope.

(* ================================================================== *)
(** ** Data model *)
(* ================================================================== *)

(** Modelled from the spec: the ORM class [User] of the module
    [database], which is imported and not part of this file. Only the
    columns read here are kept: the identity, the legacy role and the
    active flag. *)
Module User.
Record t : Type := Build { id : Z; role : Z; is_active : bool }.
End User.

(** Modelled from the spec: the ORM class [PermissionTemplate] of
    [app.shared.models.permission_template]: a named, activatable
    policy bundle. *)
Module PermissionTemplate.
Record t : Type := Build { id : Z; role_name : string; is_active : bool }.
End PermissionTemplate.

(** Modelled from the spec: the ORM class [Permission] of
    [app.shared.models.permission]: a registered (entity, action) pair. *)
Module Permission.
Record t : Type := Build { id : Z; entity : string; action : string }.
End Permission.

(** Modelled from the spec: the ORM class [PermissionTemplateItem] of
    [app.shared.models.permission_template_item]: the grant of one
    permission to one template at a level. *)
Module PermissionTemplateItem.
Record t : Type :=
  Build { template_id : Z; permission_id : Z; permission_level : Z }.
End PermissionTemplateItem.

(** The persisted state: one list of rows per table. *)
Record Db : Type := {
  users : list User.t;
  permission_templates : list PermissionTemplate.t;
  permissions : list Permission.t;
  permission_template_items : list PermissionTemplateItem.t
}.

(** [fastapi.HTTPException(status_code, detail, headers)]. *)
Record HTTPException : Type := {
  status_code : Z;
  detail : string;
  headers : option (list (string * string))
}.

(** The exceptions this file raises or catches. *)
Inductive exn : Type :=
| HTTPExc (e : HTTPException)
| JWTError.

Definition HTTP_401_UNAUTHORIZED : Z := 401.
Definition HTTP_403_FORBIDDEN : Z := 403.
Definition HTTP_500_INTERNAL_SERVER_ERROR : Z := 500.

(* ================================================================== *)
(** ** Computations over the database that may raise *)
(* ================================================================== *)

Inductive outcome (A : Type) : Type :=
| Return (a : A)
| Raise (e : exn).
Arguments Return {A} a.
Arguments Raise {A} e.

Definition M (A : Type) : Type := Db -> Db * outcome A.

Definition ret {A} (a : A) : M A := fun db => (db, Return a).

Definition raise {A} (e : exn) : M A := fun db => (db, Raise e).

Definition bind {A B} (m : M A) (k : A -> M B) : M B :=
  fun db =>
    match m db with
    | (db', Return a) => k a db'
    | (db', Raise e) => (db', Raise e)
    end.

Notation "'let*' x ':=' m 'in' k" := (bind m (fun x => k))
  (at level 10, x name, m at level 100, k at level 200,
   format "'let*'  x  ':='  m  'in' '//' k").

(** [try: body except <class>: handler], where [catches] tells the
    exceptions of the class. *)
Definition try_except {A} (body : M A) (catches : exn -> bool)
    (handler : M A) : M A :=
  fun db =>
    match body db with
    | (db', Raise e) => if catches e then handler db' else (db', Raise e)
    | r => r
    end.

Definition is_JWTError (e : exn) : bool :=
  match e with JWTError => true | HTTPExc _ => false end.

Definition is_HTTPException (e : exn) : bool :=
  match e with HTTPExc _ => true | JWTError => false end.

(** [db.query(T).filter(p).first()]: the first row of the table that
    satisfies the filter, or [None]. *)
Definition query_first {R} (table : Db -> list R) (p : R -> bool)
    : M (option R) :=
  fun db => (db, Return (find p (table db))).

(** The result of a computation, and the state it leaves. *)
Definition result_of {A} (r : Db * outcome A) : outcome A := snd r.
Definition state_of {A} (r : Db * outcome A) : Db := fst r.

(** Python truthiness of an optional string: [None] and the empty
    string are falsy. *)
Definition truthy (s : option string) : bool :=
  match s with
  | None => false
  | Some s => negb (String.eqb s "")
  end.

(** [str(n)] for an integer, as an f-string renders it. *)
Definition str (n : Z) : string := pretty n.

(* ================================================================== *)
(** ** Authentication *)
(* ================================================================== *)

Section Authentication.

(** The collaborators of the resolver: the secret and the algorithm of
    the configuration, and [jwt.decode], which returns the claims of a
    token or raises [JWTError] ([None]). The claims are a dict. *)
Variables (SECRET_KEY ALGORITHM : string).
Variable jwt_decode : string -> string -> list string -> option (gmap string Z).

Definition decode (token : string) : M (gmap string Z) :=
  match jwt_decode token SECRET_KEY [ALGORITHM] with
  | Some payload => ret payload
  | None => raise JWTError
  end.

Definition credentials_exception : HTTPException :=
  {| status_code := HTTP_401_UNAUTHORIZED;
     detail := "No se pudieron validar las credenciales";
     headers := Some [("WWW-Authenticate", "Bearer")] |}.

Definition get_current_user (token : string) : M User.t :=
  let* user_id :=
    try_except
      (let* payload := decode token in
       match payload !! "sub" with
       | None => raise (HTTPExc credentials_exception)
       | Some user_id => ret user_id
       end)
      is_JWTError
      (raise (HTTPExc credentials_exception)) in
  let* user :=
    query_first users (fun u => bool_decide (User.id u = user_id)) in
  match user with
  | None => raise (HTTPExc credentials_exception)
  | Some user =>
      if negb (User.is_active user) then
        raise (HTTPExc {| status_code := HTTP_403_FORBIDDEN;
                          detail := "Usuario inactivo";
                          headers := None |})
      else ret user
  end.

(** After the test [if not token] the token is a string; the branch
    [None] of the match below is never taken. *)
Definition get_optional_current_user (token : option string)
    : M (option User.t) :=
  if negb (truthy token) then ret None
  else
    match token with
    | None => ret None
    | Some token =>
        try_except
          (let* user := get_current_user token in ret (Some user))
          is_HTTPException
          (ret None)
    end.

End Authentication.

(* ================================================================== *)
(** ** Authorization by role *)
(* ================================================================== *)

(** The closure [role_checker] that [require_role minimum_role]
    returns, applied to the principal its dependency resolved. *)
Definition role_checker (minimum_role : Z) (current_user : User.t)
    : M User.t :=
  if User.role current_user >? minimum_role then
    raise (HTTPExc
      {| status_code := HTTP_403_FORBIDDEN;
         detail := "Se requiere rol de nivel " +:+ str minimum_role
                   +:+ " o superior";
         headers := None |})
  else ret current_user.

Definition require_role (minimum_role : Z) : User.t -> M User.t :=
  role_checker minimum_role.

Definition require_admin : User.t -> M User.t := require_role 1.
Definition require_manager : User.t -> M User.t := require_role 2.
Definition require_employee : User.t -> M User.t := require_role 3.
Definition require_any_user : User.t -> M User.t := require_role 5.

(* ================================================================== *)
(** ** Authorization by granular permission *)
(* ================================================================== *)

Definition role_mapping : gmap Z string :=
  {[ 1 := "Admin"; 2 := "Manager"; 3 := "Collaborator";
     4 := "Reader"; 5 := "Guest" ]}.

(** The three filters of the queries of [permission_checker]. *)
Definition template_filter (role_name : string) (t : PermissionTemplate.t)
    : bool :=
  bool_decide (PermissionTemplate.role_name t = role_name)
  && bool_decide (PermissionTemplate.is_active t = true).

Definition permission_filter (entity action : string) (p : Permission.t)
    : bool :=
  bool_decide (Permission.entity p = entity)
  && bool_decide (Permission.action p = action).

Definition item_filter (template : PermissionTemplate.t)
    (permission : Permission.t) (i : PermissionTemplateItem.t) : bool :=
  bool_decide (PermissionTemplateItem.template_id i
               = PermissionTemplate.id template)
  && bool_decide (PermissionTemplateItem.permission_id i
                  = Permission.id permission).

(** The closure [permission_checker] that
    [require_permission entity action min_level] returns, applied to
    the principal its dependency resolved. Below the test
    [if not role_name] the name is a string: [default] unwraps it. *)
Definition permission_checker (entity action : string) (min_level : Z)
    (current_user : User.t) : M User.t :=
  let role_name := role_mapping !! User.role current_user in
  if negb (truthy role_name) then
    raise (HTTPExc
      {| status_code := HTTP_403_FORBIDDEN;
         detail := "Rol de usuario inválido: "
                   +:+ str (User.role current_user);
         headers := None |})
  else
  let role_name := default "" role_name in
  let* template :=
    query_first permission_templates (template_filter role_name) in
  match template with
  | None =>
    raise (HTTPExc
      {| status_code := HTTP_403_FORBIDDEN;
         detail := "No se encontró configuración de permisos para el rol "
                   +:+ role_name;
         headers := None |})
  | Some template =>
    let* permission :=
      query_first permissions (permission_filter entity action) in
    match permission with
    | None =>
      raise (HTTPExc
        {| status_code := HTTP_500_INTERNAL_SERVER_ERROR;
           detail := "Permiso no configurado: " +:+ entity +:+ ":"
                     +:+ action;
           headers := None |})
    | Some permission =>
      let* template_item :=
        query_first permission_template_items
          (item_filter template permission) in
      match template_item with
      | None =>
        raise (HTTPExc
          {| status_code := HTTP_403_FORBIDDEN;
             detail := "Tu rol (" +:+ role_name
                       +:+ ") no tiene permiso para: " +:+ entity
                       +:+ ":" +:+ action;
             headers := None |})
      | Some template_item =>
        if PermissionTemplateItem.permission_level template_item
           <? min_level then
          raise (HTTPExc
            {| status_code := HTTP_403_FORBIDDEN;
               detail :=
                 "Nivel de permiso insuficiente. Requiere nivel "
                 +:+ str min_level +:+ ", tienes nivel "
                 +:+ str (PermissionTemplateItem.permission_level
                            template_item);
               headers := None |})
        else ret current_user
      end
    end
  end.

Definition require_permission (entity action : string) (min_level : Z)
    : User.t -> M User.t :=
  permission_checker entity action min_level.

(** A Check, as the gate composer hands it out: the closure of
    [require_role] or of [require_permission], as data. *)
Inductive Check : Type :=
| RoleCheck (minimum_role : Z)
| PermissionCheck (entity action : string) (min_level : Z).

Definition run_check (c : Check) : User.t -> M User.t :=
  match c with
  | RoleCheck minimum_role => require_role minimum_role
  | PermissionCheck entity action min_level =>
      require_permission entity action min_level
  end.

(* ================================================================== *)
(** ** The error kinds of the design document *)
(* ================================================================== *)

(** The design document names three kinds of failure; the code tells
    them apart by the status of the [HTTPException] alone: 401 is
    [Unauthenticated], 403 is [Forbidden], and a server-side status
    (5xx) is [ConfigurationError]. *)
Inductive error_kind : Type :=
| Unauthenticated
| Forbidden
| ConfigurationError
| OtherError.

Definition error_kind_of (e : HTTPException) : error_kind :=
  if status_code e =? HTTP_401_UNAUTHORIZED then Unauthenticated
  else if status_code e =? HTTP_403_FORBIDDEN then Forbidden
  else if (500 <=? status_code e) && (status_code e <? 600)
       then ConfigurationError
  else OtherError.

(** The kind of the failure of an outcome, if it is one. *)
Definition raised_kind {A} (o : outcome A) : option error_kind :=
  match o with
  | Return _ => None
  | Raise (HTTPExc e) => Some (error_kind_of e)
  | Raise JWTError => Some OtherError
  end.

(* ================================================================== *)
(** ** The checks behind their dependency *)
(* ================================================================== *)

Section Dependencies.

Variables (SECRET_KEY ALGORITHM : string).
Variable jwt_decode : string -> string -> list string -> option (gmap string Z).

(** [role_checker] declares [current_user = Depends(get_current_user)]:
    for a request the framework first runs [get_current_user] on the
    token of the request, and hands the principal to the checker; an
    exception of the dependency ends the request. *)
Definition depends_role_checker (minimum_role : Z) (token : string)
    : M User.t :=
  let* current_user :=
    get_current_user SECRET_KEY ALGORITHM jwt_decode token in
  role_checker minimum_role current_user.

(** The same for [permission_checker], whose [db] is the session of
    the request, the one [get_current_user] reads. *)
Definition depends_permission_checker (entity action : string)
    (min_level : Z) (token : string) : M User.t :=
  let* current_user :=
    get_current_user SECRET_KEY ALGORITHM jwt_decode token in
  permission_checker entity action min_level current_user.

End Dependencies.

(* ================================================================== *)
(** ** Pagination, filters and identifiers *)
(* ================================================================== *)

Definition HTTP_422_UNPROCESSABLE_ENTITY : Z := 422.

(** The values of the dicts these helpers return. *)
Inductive value : Type :=
| VNone
| VBool (b : bool)
| VInt (n : Z)
| VStr (s : string).

(** [get_pagination_params(page=1, per_page=20, max_per_page=100)];
    the three arguments are passed explicitly. *)
Definition get_pagination_params (page per_page max_per_page : Z)
    : outcome (gmap string Z) :=
  if page <? 1 then
    Raise (HTTPExc
      {| status_code := HTTP_422_UNPROCESSABLE_ENTITY;
         detail := "El número de página debe ser mayor a 0";
         headers := None |})
  else if per_page <? 1 then
    Raise (HTTPExc
      {| status_code := HTTP_422_UNPROCESSABLE_ENTITY;
         detail := "Los registros por página deben ser mayor a 0";
         headers := None |})
  else if per_page >? max_per_page then
    Raise (HTTPExc
      {| status_code := HTTP_422_UNPROCESSABLE_ENTITY;
         detail := "Máximo " +:+ str max_per_page
                   +:+ " registros por página permitidos";
         headers := None |})
  else
    Return {[ "page" := page; "per_page" := per_page;
              "skip" := (page - 1) * per_page ]}.

Definition value_of_optional (s : option string) : value :=
  match s with
  | Some s => VStr s
  | None => VNone
  end.

Section Filters.

(** The builtin [str.strip], which removes the white space at both
    ends of a string. *)
Variable strip : string -> string.

Definition get_common_filters (active_only : bool)
    (search order_by : option string) (order_direction : string)
    : outcome (gmap string value) :=
  if negb (bool_decide (order_direction ∈ ["asc"; "desc"])) then
    Raise (HTTPExc
      {| status_code := HTTP_422_UNPROCESSABLE_ENTITY;
         detail := "order_direction debe ser 'asc' o 'desc'";
         headers := None |})
  else
    Return {[ "active_only" := VBool active_only;
              "search" := (if truthy search
                           then VStr (strip (default "" search))
                           else VNone);
              "order_by" := value_of_optional order_by;
              "order_direction" := VStr order_direction ]}.

End Filters.

Definition validate_positive_int (value : Z) (field_name : string)
    : outcome Z :=
  if value <=? 0 then
    Raise (HTTPExc
      {| status_code := HTTP_422_UNPROCESSABLE_ENTITY;
         detail := field_name +:+ " debe ser un número positivo";
         headers := None |})
  else Return value.

Definition get_valid_id (id : Z) : outcome Z :=
  validate_positive_int id "ID".

(** The offset a pagination result carries, if it is one. *)
Definition skip_of (o : outcome (gmap string Z)) : option Z :=
  match o with
  | Return d => d !! "skip"
  | Raise _ => None
  end.

(** The rows behind an accepted permission check. *)
Definition granted (entity action : string) (min_level : Z)
    (u : User.t) (db : Db) : Prop :=
  1 <= User.role u <= 5
  /\ exists name t p i,
       role_mapping !! User.role u = Some name
       /\ In t (permission_templates db)
       /\ PermissionTemplate.role_name t = name
       /\ PermissionTemplate.is_active t = true
       /\ In p (permissions db)
       /\ Permission.entity p = entity
       /\ Permission.action p = action
       /\ In i (permission_template_items db)
       /\ PermissionTemplateItem.template_id i = PermissionTemplate.id t
       /\ PermissionTemplateItem.permission_id i = Permission.id p
       /\ min_level <= PermissionTemplateItem.permission_level i.

(* ================================================================== *)
(** ** Concrete data for the examples *)
(* ================================================================== *)

Definition admin_template : PermissionTemplate.t :=
  PermissionTemplate.Build 10 "Admin" true.
Definition manager_template : PermissionTemplate.t :=
  PermissionTemplate.Build 20 "Manager" true.
Definition guest_template : PermissionTemplate.t :=
  PermissionTemplate.Build 50 "Guest" true.

Definition reports_export : Permission.t :=
  Permission.Build 100 "reports" "export".
Definition invoices_update : Permission.t :=
  Permission.Build 101 "invoices" "update".
Definition users_delete : Permission.t :=
  Permission.Build 102 "users" "delete".
Definition notes_list : Permission.t :=
  Permission.Build 103 "notes" "list".

Definition alice : User.t := User.Build 1 1 true.
Definition bob : User.t := User.Build 2 2 true.
Definition carol : User.t := User.Build 3 5 true.
Definition dave : User.t := User.Build 4 5 false.
Definition zed : User.t := User.Build 5 0 true.
Definition omar : User.t := User.Build 7 3 true.
Definition nina : User.t := User.Build 6 99 true.

Definition sample_db : Db :=
  {| users := [alice; bob; carol; dave; zed; nina; omar];
     permission_templates :=
       [admin_template; manager_template; guest_template];
     permissions :=
       [reports_export; invoices_update; users_delete; notes_list];
     permission_template_items :=
       [ PermissionTemplateItem.Build 10 100 4;
         PermissionTemplateItem.Build 20 101 2;
         PermissionTemplateItem.Build 50 103 0 ] |}.

(** A toy token format for the examples: the token [tok:<name>]
    carries the identity of the sample user of that name; the token
    [nosub] decodes to claims without a subject; anything else is
    rejected. *)
Definition sample_decode (token key : string) (algorithms : list string)
    : option (gmap string Z) :=
  if String.eqb token "tok:alice" then Some {[ "sub" := 1 ]}
  else if String.eqb token "tok:dave" then Some {[ "sub" := 4 ]}
  else if String.eqb token "tok:ghost" then Some {[ "sub" := 77 ]}
  else if String.eqb token "nosub" then Some {[ "exp" := 0 ]}
  else None.

(** Unfolding a check down to its tests and queries. *)
Ltac run_checker :=
  unfold require_permission, permission_checker, require_role,
    role_checker, bind, query_first, raise, ret; cbv beta zeta.

(** Splitting on the three tests of the pagination. *)
Ltac run_pagination :=
  unfold get_pagination_params;
  repeat match goal with
  | |- context [?a <? ?b] => destruct (Z.ltb_spec a b)
  | |- context [?a >? ?b] => destruct (Z.gtb_spec a b)
  end.

(** Passing the test [if not role_name] with the name [H] gives, [Ht]
    telling that the name is truthy. *)
Ltac use_role_name H Ht :=
  rewrite H; rewrite Ht; cbn [negb from_option id].

Example str_examples : str 0 = "0" /\ str 42 = "42" /\ str (-7) = "-7".
Proof. repeat split; vm_compute; reflexivity. Qed.

(** The scenarios A to D of the design document, run on the sample
    database. *)
Example scenario_A :
  require_permission "reports" "export" 4 alice sample_db
  = (sample_db, Return alice).
Proof. vm_compute. reflexivity. Qed.

Example scenario_B :
  raised_kind (result_of
    (require_permission "users" "delete" 1 carol sample_db))
  = Some Forbidden.
Proof. vm_compute. reflexivity. Qed.

Example scenario_D :
  require_permission "invoices" "update" 3 bob sample_db
  = (sample_db,
     Raise (HTTPExc
       {| status_code := 403;
          detail := "Nivel de permiso insuficiente. Requiere nivel 3, tienes nivel 2";
          headers := None |})).
Proof. vm_compute. reflexivity. Qed.

(* ================================================================== *)
(** ** The static role mapping *)
(* ================================================================== *)

Lemma role_mapping_cases (r : Z) :
  role_mapping !! r =
    if decide (r = 1) then Some "Admin"
    else if decide (r = 2) then Some "Manager"
    else if decide (r = 3) then Some "Collaborator"
    else if decide (r = 4) then Some "Reader"
    else if decide (r = 5) then Some "Guest"
    else None.
Proof.
  unfold role_mapping.
  rewrite !lookup_insert, lookup_singleton.
  repeat case_decide; try lia; reflexivity.
Qed.

Lemma role_mapping_None (r : Z) :
  role_mapping !! r = None <-> r < 1 \/ 5 < r.
Proof.
  rewrite role_mapping_cases.
  repeat case_decide; split; intros; try discriminate; try lia; reflexivity.
Qed.

Lemma role_mapping_Some_truthy (r : Z) (name : string) :
  role_mapping !! r = Some name -> truthy (Some name) = true.
Proof.
  rewrite role_mapping_cases.
  repeat case_decide; intros [= <-]; reflexivity.
Qed.

(* ================================================================== *)
(** ** Running the permission check step by step *)
(* ================================================================== *)

(** Step 1 fails: the role has no entry in the mapping. *)
Lemma permission_checker_unmapped entity action min_level u db :
  role_mapping !! User.role u = None ->
  permission_checker entity action min_level u db
  = (db, Raise (HTTPExc
      {| status_code := HTTP_403_FORBIDDEN;
         detail := "Rol de usuario inválido: " +:+ str (User.role u);
         headers := None |})).
Proof. intros Hrole. run_checker. rewrite Hrole. reflexivity. Qed.

(** Step 2 fails: no active template carries the mapped name. *)
Lemma permission_checker_no_template entity action min_level u db name :
  role_mapping !! User.role u = Some name ->
  find (template_filter name) (permission_templates db) = None ->
  permission_checker entity action min_level u db
  = (db, Raise (HTTPExc
      {| status_code := HTTP_403_FORBIDDEN;
         detail := "No se encontró configuración de permisos para el rol "
                   +:+ name;
         headers := None |})).
Proof.
  intros Hrole Ht. run_checker. use_role_name Hrole (role_mapping_Some_truthy _ _ Hrole).
  rewrite Ht. reflexivity.
Qed.

(** Step 3 fails: the pair (entity, action) is not registered. *)
Lemma permission_checker_unregistered entity action min_level u db name t :
  role_mapping !! User.role u = Some name ->
  find (template_filter name) (permission_templates db) = Some t ->
  find (permission_filter entity action) (permissions db) = None ->
  permission_checker entity action min_level u db
  = (db, Raise (HTTPExc
      {| status_code := HTTP_500_INTERNAL_SERVER_ERROR;
         detail := "Permiso no configurado: " +:+ entity +:+ ":" +:+ action;
         headers := None |})).
Proof.
  intros Hrole Ht Hp. run_checker. use_role_name Hrole (role_mapping_Some_truthy _ _ Hrole).
  rewrite Ht, Hp. reflexivity.
Qed.

(** Step 4 fails: the template has no item for the permission. *)
Lemma permission_checker_unbound entity action min_level u db name t p :
  role_mapping !! User.role u = Some name ->
  find (template_filter name) (permission_templates db) = Some t ->
  find (permission_filter entity action) (permissions db) = Some p ->
  find (item_filter t p) (permission_template_items db) = None ->
  permission_checker entity action min_level u db
  = (db, Raise (HTTPExc
      {| status_code := HTTP_403_FORBIDDEN;
         detail := "Tu rol (" +:+ name +:+ ") no tiene permiso para: "
                   +:+ entity +:+ ":" +:+ action;
         headers := None |})).
Proof.
  intros Hrole Ht Hp Hi. run_checker. use_role_name Hrole (role_mapping_Some_truthy _ _ Hrole).
  rewrite Ht, Hp, Hi. reflexivity.
Qed.

(** Steps 1 to 4 pass: the outcome is that of the level comparison. *)
Lemma permission_checker_bound entity action min_level u db name t p i :
  role_mapping !! User.role u = Some name ->
  find (template_filter name) (permission_templates db) = Some t ->
  find (permission_filter entity action) (permissions db) = Some p ->
  find (item_filter t p) (permission_template_items db) = Some i ->
  permission_checker entity action min_level u db
  = (db,
     if PermissionTemplateItem.permission_level i <? min_level then
       Raise (HTTPExc
         {| status_code := HTTP_403_FORBIDDEN;
            detail := "Nivel de permiso insuficiente. Requiere nivel "
                      +:+ str min_level +:+ ", tienes nivel "
                      +:+ str (PermissionTemplateItem.permission_level i);
            headers := None |})
     else Return u).
Proof.
  intros Hrole Ht Hp Hi. run_checker. use_role_name Hrole (role_mapping_Some_truthy _ _ Hrole).
  rewrite Ht, Hp, Hi.
  destruct (PermissionTemplateItem.permission_level i <? min_level);
    reflexivity.
Qed.

(** The permission check reads the database and leaves it as it is. *)
Lemma permission_checker_reads entity action min_level u db :
  state_of (permission_checker entity action min_level u db) = db.
Proof.
  run_checker.
  destruct (negb (truthy (role_mapping !! User.role u))); [reflexivity|].
  destruct (find _ (permission_templates db)) as [t|]; [|reflexivity].
  destruct (find _ (permissions db)) as [p|]; [|reflexivity].
  destruct (find _ (permission_template_items db)) as [i|]; [|reflexivity].
  destruct (_ <? _); reflexivity.
Qed.

Lemma role_checker_reads minimum_role u db :
  state_of (role_checker minimum_role u db) = db.
Proof. run_checker. destruct (_ >? _); reflexivity. Qed.

(* ================================================================== *)
(** ** The level comparison *)
(* ================================================================== *)

(** C1. When the role of the principal maps to an active template that
    binds the registered permission (entity, action) at level L, the
    check of [require_permission] with [min_level <= L] succeeds and
    returns the principal unchanged; with [min_level > L] it fails with
    a 403 (Forbidden) whose detail prints both [min_level] and L. *)
Theorem permission_level_check entity action min_level u db name t p i :
  role_mapping !! User.role u = Some name ->
  find (template_filter name) (permission_templates db) = Some t ->
  find (permission_filter entity action) (permissions db) = Some p ->
  find (item_filter t p) (permission_template_items db) = Some i ->
  (min_level <= PermissionTemplateItem.permission_level i ->
     require_permission entity action min_level u db = (db, Return u))
  /\ (min_level > PermissionTemplateItem.permission_level i ->
      require_permission entity action min_level u db
      = (db, Raise (HTTPExc
          {| status_code := HTTP_403_FORBIDDEN;
             detail := "Nivel de permiso insuficiente. Requiere nivel "
                       +:+ str min_level +:+ ", tienes nivel "
                       +:+ str (PermissionTemplateItem.permission_level i);
             headers := None |}))
      /\ raised_kind
           (result_of (require_permission entity action min_level u db))
         = Some Forbidden).
Proof.
  intros Hrole Ht Hp Hi. unfold require_permission.
  rewrite (permission_checker_bound _ _ _ _ _ _ _ _ _ Hrole Ht Hp Hi).
  split; intros Hlevel.
  - apply Z.ltb_ge in Hlevel. rewrite Hlevel. reflexivity.
  - assert (Hlt : (PermissionTemplateItem.permission_level i <? min_level)
                  = true) by (apply Z.ltb_lt; lia).
    rewrite Hlt. split; reflexivity.
Qed.

Lemma permission_level_check_witness :
  require_permission "invoices" "update" 2 bob sample_db
  = (sample_db, Return bob)
  /\ require_permission "invoices" "update" 3 bob sample_db
     = (sample_db, Raise (HTTPExc
         {| status_code := 403;
            detail := "Nivel de permiso insuficiente. Requiere nivel 3, tienes nivel 2";
            headers := None |})).
Proof.
  split.
  - apply (permission_level_check "invoices" "update" 2 bob sample_db
             "Manager" manager_template invoices_update
             (PermissionTemplateItem.Build 20 101 2));
      [reflexivity | reflexivity | reflexivity | reflexivity | simpl; lia].
  - apply (permission_level_check "invoices" "update" 3 bob sample_db
             "Manager" manager_template invoices_update
             (PermissionTemplateItem.Build 20 101 2));
      [reflexivity | reflexivity | reflexivity | reflexivity | simpl; lia].
Defined.

(** C10. With [min_level = 0] a principal whose template binds the
    registered permission is authorized at every level from 0 up, and
    so at level 0, the level documented as no access: the comparison
    is a strict less-than. *)
Theorem level_zero_is_authorized entity action u db name t p i :
  role_mapping !! User.role u = Some name ->
  find (template_filter name) (permission_templates db) = Some t ->
  find (permission_filter entity action) (permissions db) = Some p ->
  find (item_filter t p) (permission_template_items db) = Some i ->
  0 <= PermissionTemplateItem.permission_level i ->
  require_permission entity action 0 u db = (db, Return u).
Proof.
  intros Hrole Ht Hp Hi Hlevel. unfold require_permission.
  rewrite (permission_checker_bound _ _ _ _ _ _ _ _ _ Hrole Ht Hp Hi).
  apply Z.ltb_ge in Hlevel. rewrite Hlevel. reflexivity.
Qed.

Lemma level_zero_is_authorized_witness :
  PermissionTemplateItem.permission_level
    (PermissionTemplateItem.Build 50 103 0) = 0
  /\ require_permission "notes" "list" 0 carol sample_db
     = (sample_db, Return carol).
Proof.
  split; [reflexivity|].
  apply (level_zero_is_authorized "notes" "list" carol sample_db
           "Guest" guest_template notes_list
           (PermissionTemplateItem.Build 50 103 0));
    [reflexivity | reflexivity | reflexivity | reflexivity | simpl; lia].
Defined.

(* ================================================================== *)
(** ** The failures of the permission check *)
(* ================================================================== *)

(** C2, as stated, fails: the principal [nina] has role 99, which the
    mapping does not know, and the check rejects her with a 403, the
    status of an authorization denial, and not with a server-side
    status. *)
Lemma unmapped_role_not_configuration_error :
  role_mapping !! User.role nina = None
  /\ require_permission "users" "delete" 1 nina sample_db
     = (sample_db, Raise (HTTPExc
         {| status_code := 403;
            detail := "Rol de usuario inválido: 99";
            headers := None |}))
  /\ raised_kind
       (result_of (require_permission "users" "delete" 1 nina sample_db))
     <> Some ConfigurationError.
Proof.
  split; [reflexivity|]. split; [vm_compute; reflexivity|].
  vm_compute. discriminate.
Qed.

(** C2, amended. When the role of the principal has no entry in the
    static mapping, every check of [require_permission] fails with a
    403 (Forbidden) whose detail names the invalid role: by its status
    it is an authorization denial like the others. *)
Theorem unmapped_role_forbidden entity action min_level u db :
  role_mapping !! User.role u = None ->
  require_permission entity action min_level u db
  = (db, Raise (HTTPExc
      {| status_code := HTTP_403_FORBIDDEN;
         detail := "Rol de usuario inválido: " +:+ str (User.role u);
         headers := None |}))
  /\ raised_kind
       (result_of (require_permission entity action min_level u db))
     = Some Forbidden.
Proof.
  intros Hrole. unfold require_permission.
  rewrite (permission_checker_unmapped _ _ _ _ _ Hrole).
  split; reflexivity.
Qed.

Lemma unmapped_role_forbidden_witness :
  raised_kind
    (result_of (require_permission "reports" "export" 4 nina sample_db))
  = Some Forbidden.
Proof.
  apply (unmapped_role_forbidden "reports" "export" 4 nina sample_db).
  reflexivity.
Defined.

(** C3, as stated, fails: no Permission row is registered for
    (ghosts, summon), yet the outcome depends on the principal. The
    check answers [alice] with a 500, but [nina], whose role is not
    mapped, and [omar], whose role has no active template, with a 403:
    the steps on the role and on the template come first. *)
Lemma unregistered_permission_depends_on_principal :
  find (permission_filter "ghosts" "summon") (permissions sample_db) = None
  /\ raised_kind
       (result_of (require_permission "ghosts" "summon" 1 alice sample_db))
     = Some ConfigurationError
  /\ raised_kind
       (result_of (require_permission "ghosts" "summon" 1 nina sample_db))
     = Some Forbidden
  /\ raised_kind
       (result_of (require_permission "ghosts" "summon" 1 omar sample_db))
     = Some Forbidden.
Proof.
  split; [reflexivity|]. split; [vm_compute; reflexivity|].
  split; vm_compute; reflexivity.
Qed.

(** C3, amended. For a pair (entity, action) with no registered
    Permission row, the check fails with a 500 (a server-side error,
    not a 403) for every principal whose role maps to an active
    template. *)
Theorem unregistered_permission_is_server_error
    entity action min_level u db name t :
  role_mapping !! User.role u = Some name ->
  find (template_filter name) (permission_templates db) = Some t ->
  find (permission_filter entity action) (permissions db) = None ->
  require_permission entity action min_level u db
  = (db, Raise (HTTPExc
      {| status_code := HTTP_500_INTERNAL_SERVER_ERROR;
         detail := "Permiso no configurado: " +:+ entity +:+ ":" +:+ action;
         headers := None |}))
  /\ raised_kind
       (result_of (require_permission entity action min_level u db))
     = Some ConfigurationError.
Proof.
  intros Hrole Ht Hp. unfold require_permission.
  rewrite (permission_checker_unregistered _ _ _ _ _ _ _ Hrole Ht Hp).
  split; reflexivity.
Qed.

Lemma unregistered_permission_is_server_error_witness :
  require_permission "ghosts" "summon" 1 alice sample_db
  = (sample_db, Raise (HTTPExc
      {| status_code := 500;
         detail := "Permiso no configurado: ghosts:summon";
         headers := None |})).
Proof.
  apply (unregistered_permission_is_server_error "ghosts" "summon" 1
           alice sample_db "Admin" admin_template);
    reflexivity.
Defined.

(** C4. When the role of the principal maps to an active template and
    the permission (entity, action) is registered, but the template
    has no item for it, the check fails with a 403 (Forbidden: the
    role lacks the permission), not with a configuration error. *)
Theorem unbound_permission_forbidden entity action min_level u db name t p :
  role_mapping !! User.role u = Some name ->
  find (template_filter name) (permission_templates db) = Some t ->
  find (permission_filter entity action) (permissions db) = Some p ->
  find (item_filter t p) (permission_template_items db) = None ->
  require_permission entity action min_level u db
  = (db, Raise (HTTPExc
      {| status_code := HTTP_403_FORBIDDEN;
         detail := "Tu rol (" +:+ name +:+ ") no tiene permiso para: "
                   +:+ entity +:+ ":" +:+ action;
         headers := None |}))
  /\ raised_kind
       (result_of (require_permission entity action min_level u db))
     = Some Forbidden
  /\ raised_kind
       (result_of (require_permission entity action min_level u db))
     <> Some ConfigurationError.
Proof.
  intros Hrole Ht Hp Hi. unfold require_permission.
  rewrite (permission_checker_unbound _ _ _ _ _ _ _ _ Hrole Ht Hp Hi).
  split; [reflexivity|]. split; [reflexivity | discriminate].
Qed.

Lemma unbound_permission_forbidden_witness :
  require_permission "users" "delete" 1 carol sample_db
  = (sample_db, Raise (HTTPExc
      {| status_code := 403;
         detail := "Tu rol (Guest) no tiene permiso para: users:delete";
         headers := None |})).
Proof.
  apply (unbound_permission_forbidden "users" "delete" 1 carol sample_db
           "Guest" guest_template users_delete);
    reflexivity.
Defined.

(* ================================================================== *)
(** ** The role gate *)
(* ================================================================== *)

(** C5. For every integer [minimum_role] and every principal, the
    check of [require_role minimum_role] fails with a 403 (Forbidden)
    exactly when the role of the principal is greater than
    [minimum_role]; otherwise it succeeds and returns the same
    principal. *)
Theorem role_gate_decision (minimum_role : Z) (u : User.t) (db : Db) :
  (User.role u > minimum_role <->
     require_role minimum_role u db
     = (db, Raise (HTTPExc
         {| status_code := HTTP_403_FORBIDDEN;
            detail := "Se requiere rol de nivel " +:+ str minimum_role
                      +:+ " o superior";
            headers := None |})))
  /\ (User.role u > minimum_role <->
        raised_kind (result_of (require_role minimum_role u db))
        = Some Forbidden)
  /\ (User.role u <= minimum_role <->
        require_role minimum_role u db = (db, Return u)).
Proof.
  run_checker.
  destruct (Z.gtb_spec (User.role u) minimum_role) as [Hgt|Hle].
  - split; [|split]; split; intros H;
      first [reflexivity | lia | discriminate H].
  - split; [|split]; split; intros H;
      first [reflexivity | lia | discriminate H].
Qed.

(** C9, as stated, fails: the principal [zed] has role 0, below 1, and
    the role gate built with the threshold -1 rejects him; not every
    role gate accepts a role below 1. *)
Lemma role_below_one_rejected_by_lower_gate :
  User.role zed < 1
  /\ User.is_active zed = true
  /\ require_role (-1) zed sample_db
     = (sample_db, Raise (HTTPExc
         {| status_code := 403;
            detail := "Se requiere rol de nivel -1 o superior";
            headers := None |})).
Proof.
  split; [reflexivity|]. split; [reflexivity|]. vm_compute. reflexivity.
Qed.

(** C9, amended. The role gate has no lower bound on the role: a
    principal whose role is below 1 is accepted by every role gate
    whose threshold is not below that role, and so by every gate with
    a threshold from 0 up and by the four presets, [require_admin]
    among them; the same principal is rejected by every check of
    [require_permission] at the role mapping, which knows the roles 1
    to 5 only. *)
Theorem role_below_one_passes_gate_not_mapping (u : User.t) (db : Db) :
  User.role u < 1 ->
  (forall minimum_role, User.role u <= minimum_role ->
     require_role minimum_role u db = (db, Return u))
  /\ (forall minimum_role, 0 <= minimum_role ->
        require_role minimum_role u db = (db, Return u))
  /\ require_admin u db = (db, Return u)
  /\ require_manager u db = (db, Return u)
  /\ require_employee u db = (db, Return u)
  /\ require_any_user u db = (db, Return u)
  /\ (forall entity action min_level,
        require_permission entity action min_level u db
        = (db, Raise (HTTPExc
            {| status_code := HTTP_403_FORBIDDEN;
               detail := "Rol de usuario inválido: " +:+ str (User.role u);
               headers := None |}))).
Proof.
  intros Hrole.
  assert (Hgate : forall minimum_role, User.role u <= minimum_role ->
            require_role minimum_role u db = (db, Return u)).
  { intros m Hm. run_checker.
    destruct (Z.gtb_spec (User.role u) m); [lia | reflexivity]. }
  split; [exact Hgate|].
  split; [intros m Hm; apply Hgate; lia|].
  unfold require_admin, require_manager, require_employee, require_any_user.
  do 4 (split; [apply Hgate; lia|]).
  intros entity action min_level. unfold require_permission.
  apply permission_checker_unmapped, role_mapping_None. lia.
Qed.

Lemma role_below_one_passes_gate_not_mapping_witness :
  require_admin zed sample_db = (sample_db, Return zed)
  /\ require_permission "notes" "list" 0 zed sample_db
     = (sample_db, Raise (HTTPExc
         {| status_code := 403;
            detail := "Rol de usuario inválido: 0";
            headers := None |})).
Proof.
  destruct (role_below_one_passes_gate_not_mapping zed sample_db)
    as (_ & _ & Hadmin & _ & _ & _ & Hperm); [simpl; lia|].
  split; [exact Hadmin | exact (Hperm "notes" "list" 0)].
Defined.

(* ================================================================== *)
(** ** Repeating a check *)
(* ================================================================== *)

(** C8. A check, of a role or of a permission, leaves the persisted
    state as it found it, and a second run of the same check for the
    same principal on that state has the outcome of the first: the
    same acceptance or the same error. *)
Theorem check_twice_same_outcome (c : Check) (u : User.t) (db : Db) :
  state_of (run_check c u db) = db
  /\ result_of (run_check c u (state_of (run_check c u db)))
     = result_of (run_check c u db)
  /\ raised_kind (result_of (run_check c u (state_of (run_check c u db))))
     = raised_kind (result_of (run_check c u db)).
Proof.
  assert (Hstate : state_of (run_check c u db) = db).
  { destruct c as [m | entity action min_level]; cbn [run_check].
    - apply role_checker_reads.
    - apply permission_checker_reads. }
  rewrite Hstate. split; [reflexivity|]. split; reflexivity.
Qed.

(* ================================================================== *)
(** ** The principal resolver *)
(* ================================================================== *)

Section Resolver.

Variables (SECRET_KEY ALGORITHM : string).
Variable jwt_decode : string -> string -> list string -> option (gmap string Z).

Local Abbreviation resolve :=
  (get_current_user SECRET_KEY ALGORITHM jwt_decode).
Local Abbreviation resolve_optional :=
  (get_optional_current_user SECRET_KEY ALGORITHM jwt_decode).
Local Abbreviation by_id user_id :=
  (fun u : User.t => bool_decide (User.id u = user_id)).

(** The resolver, run: the state is untouched, and the outcome follows
    the decoding, the subject claim, the lookup and the active flag. *)
Lemma get_current_user_run (token : string) (db : Db) :
  resolve token db
  = (db,
     match jwt_decode token SECRET_KEY [ALGORITHM] with
     | None => Raise (HTTPExc credentials_exception)
     | Some payload =>
       match payload !! "sub" with
       | None => Raise (HTTPExc credentials_exception)
       | Some user_id =>
         match find (by_id user_id) (users db) with
         | None => Raise (HTTPExc credentials_exception)
         | Some user =>
           if User.is_active user then Return user
           else Raise (HTTPExc {| status_code := HTTP_403_FORBIDDEN;
                                  detail := "Usuario inactivo";
                                  headers := None |})
         end
       end
     end).
Proof.
  unfold get_current_user, try_except, decode, bind, query_first, raise, ret.
  destruct (jwt_decode token SECRET_KEY [ALGORITHM]) as [payload|];
    [|reflexivity].
  destruct (payload !! "sub") as [user_id|]; [|reflexivity].
  cbn [is_JWTError].
  destruct (find _ (users db)) as [user|]; [|reflexivity].
  destruct (User.is_active user); reflexivity.
Qed.

(** The resolver raises nothing but an [HTTPException]. *)
Lemma get_current_user_raises (token : string) (db : Db) (e : exn) :
  result_of (resolve token db) = Raise e -> is_HTTPException e = true.
Proof.
  rewrite get_current_user_run. unfold result_of. cbn [snd].
  repeat case_match; intros [= <-]; reflexivity.
Qed.

(** C6. The resolver [get_current_user] fails with a 401
    (Unauthenticated) when the token is malformed, when its claims
    carry no principal id, and when no principal has the decoded id;
    it fails with a 403 (Forbidden, inactive) when the principal found
    is not active; and it returns a principal exactly when the token
    decodes to the id of that principal, found in the database and
    active. *)
Theorem principal_resolver_cases (token : string) (db : Db) :
  (jwt_decode token SECRET_KEY [ALGORITHM] = None ->
     resolve token db = (db, Raise (HTTPExc credentials_exception)))
  /\ (forall payload,
        jwt_decode token SECRET_KEY [ALGORITHM] = Some payload ->
        payload !! "sub" = None ->
        resolve token db = (db, Raise (HTTPExc credentials_exception)))
  /\ (forall payload user_id,
        jwt_decode token SECRET_KEY [ALGORITHM] = Some payload ->
        payload !! "sub" = Some user_id ->
        find (by_id user_id) (users db) = None ->
        resolve token db = (db, Raise (HTTPExc credentials_exception)))
  /\ (forall payload user_id user,
        jwt_decode token SECRET_KEY [ALGORITHM] = Some payload ->
        payload !! "sub" = Some user_id ->
        find (by_id user_id) (users db) = Some user ->
        User.is_active user = false ->
        resolve token db
        = (db, Raise (HTTPExc {| status_code := HTTP_403_FORBIDDEN;
                                 detail := "Usuario inactivo";
                                 headers := None |})))
  /\ (forall user,
        result_of (resolve token db) = Return user <->
        exists payload user_id,
          jwt_decode token SECRET_KEY [ALGORITHM] = Some payload
          /\ payload !! "sub" = Some user_id
          /\ find (by_id user_id) (users db) = Some user
          /\ User.is_active user = true)
  /\ error_kind_of credentials_exception = Unauthenticated
  /\ error_kind_of {| status_code := HTTP_403_FORBIDDEN;
                      detail := "Usuario inactivo";
                      headers := None |} = Forbidden.
Proof.
  rewrite get_current_user_run.
  split; [intros ->; reflexivity|].
  split; [intros payload -> ->; reflexivity|].
  split; [intros payload user_id -> -> ->; reflexivity|].
  split; [intros payload user_id user -> -> -> ->; reflexivity|].
  split; [|split; reflexivity].
  intros user. unfold result_of. cbn [snd]. split.
  - destruct (jwt_decode token SECRET_KEY [ALGORITHM]) as [payload|];
      [|discriminate].
    destruct (payload !! "sub") as [user_id|] eqn:Hsub; [|discriminate].
    destruct (find _ (users db)) as [found|] eqn:Hfind; [|discriminate].
    destruct (User.is_active found) eqn:Hactive; [|discriminate].
    intros [= ->]. exists payload, user_id. auto.
  - intros (payload & user_id & -> & -> & -> & ->). reflexivity.
Qed.

(** C7. The optional resolver [get_optional_current_user] never fails,
    whatever the token, absent or not: it returns, and every failure
    of [get_current_user] becomes the absent result [None]; a
    principal that [get_current_user] returns for a token that is not
    empty is passed on. *)
Theorem optional_resolver_never_fails (token : option string) (db : Db) :
  (exists r : option User.t, resolve_optional token db = (db, Return r))
  /\ (token = None -> resolve_optional token db = (db, Return None))
  /\ (forall tok e,
        token = Some tok ->
        result_of (resolve tok db) = Raise e ->
        resolve_optional token db = (db, Return None))
  /\ (forall tok user,
        token = Some tok -> tok <> "" ->
        result_of (resolve tok db) = Return user ->
        resolve_optional token db = (db, Return (Some user))).
Proof.
  assert (Hrun : forall tok,
            resolve_optional (Some tok) db
            = (db, if String.eqb tok "" then Return None
                   else match result_of (resolve tok db) with
                        | Return user => Return (Some user)
                        | Raise _ => Return None
                        end)).
  { intros tok. unfold get_optional_current_user, truthy.
    destruct (String.eqb tok ""); [reflexivity|]. cbn [negb].
    unfold try_except, bind, ret.
    pose proof (get_current_user_raises tok db) as Hexn.
    pose proof (f_equal fst (get_current_user_run tok db)) as Hstate.
    unfold result_of in *.
    destruct (resolve tok db) as [db' [user|e]]; cbn [fst snd] in *;
      subst db'; [reflexivity|].
    rewrite (Hexn e eq_refl). reflexivity. }
  split; [|split; [|split]].
  - destruct token as [tok|]; [|exists None; reflexivity].
    rewrite Hrun.
    destruct (String.eqb tok ""); [exists None; reflexivity|].
    destruct (result_of (resolve tok db)) as [user|e];
      [exists (Some user) | exists None]; reflexivity.
  - intros ->. reflexivity.
  - intros tok e -> Hfail. rewrite Hrun, Hfail.
    destruct (String.eqb tok ""); reflexivity.
  - intros tok user -> Hne Hok. rewrite Hrun, Hok.
    destruct (String.eqb_spec tok ""); [contradiction | reflexivity].
Qed.

End Resolver.

(* ================================================================== *)
(** ** The resolvers on the sample tokens *)
(* ================================================================== *)

Lemma principal_resolver_cases_witness :
  get_current_user "k" "HS256" sample_decode "garbage" sample_db
  = (sample_db, Raise (HTTPExc credentials_exception))
  /\ get_current_user "k" "HS256" sample_decode "nosub" sample_db
     = (sample_db, Raise (HTTPExc credentials_exception))
  /\ get_current_user "k" "HS256" sample_decode "tok:ghost" sample_db
     = (sample_db, Raise (HTTPExc credentials_exception))
  /\ get_current_user "k" "HS256" sample_decode "tok:dave" sample_db
     = (sample_db, Raise (HTTPExc {| status_code := 403;
                                     detail := "Usuario inactivo";
                                     headers := None |}))
  /\ result_of
       (get_current_user "k" "HS256" sample_decode "tok:alice" sample_db)
     = Return alice.
Proof.
  split; [|split; [|split; [|split]]].
  - apply (principal_resolver_cases "k" "HS256" sample_decode
             "garbage" sample_db).
    reflexivity.
  - apply (proj1 (proj2 (principal_resolver_cases "k" "HS256"
             sample_decode "nosub" sample_db)) {[ "exp" := 0 ]});
      reflexivity.
  - apply (proj1 (proj2 (proj2 (principal_resolver_cases "k" "HS256"
             sample_decode "tok:ghost" sample_db))) {[ "sub" := 77 ]} 77);
      reflexivity.
  - apply (proj1 (proj2 (proj2 (proj2 (principal_resolver_cases "k" "HS256"
             sample_decode "tok:dave" sample_db)))) {[ "sub" := 4 ]} 4 dave);
      reflexivity.
  - apply (proj1 (proj2 (proj2 (proj2 (proj2 (principal_resolver_cases
             "k" "HS256" sample_decode "tok:alice" sample_db))))) alice).
    exists {[ "sub" := 1 ]}, 1. repeat split; reflexivity.
Defined.

(** Scenario E of the design document: the token of an inactive
    principal, an absent token and a rejected token all give the
    absent result; the token of an active principal gives her. *)
Lemma optional_resolver_never_fails_witness :
  get_optional_current_user "k" "HS256" sample_decode
    (Some "tok:dave") sample_db = (sample_db, Return None)
  /\ get_optional_current_user "k" "HS256" sample_decode
       None sample_db = (sample_db, Return None)
  /\ get_optional_current_user "k" "HS256" sample_decode
       (Some "garbage") sample_db = (sample_db, Return None)
  /\ get_optional_current_user "k" "HS256" sample_decode
       (Some "tok:alice") sample_db = (sample_db, Return (Some alice)).
Proof.
  split; [|split; [|split]].
  - eapply (proj1 (proj2 (proj2 (optional_resolver_never_fails "k" "HS256"
              sample_decode (Some "tok:dave") sample_db))));
      [reflexivity | vm_compute; reflexivity].
  - apply (proj1 (proj2 (optional_resolver_never_fails "k" "HS256"
             sample_decode None sample_db))).
    reflexivity.
  - eapply (proj1 (proj2 (proj2 (optional_resolver_never_fails "k" "HS256"
              sample_decode (Some "garbage") sample_db))));
      [reflexivity | vm_compute; reflexivity].
  - apply (proj2 (proj2 (proj2 (optional_resolver_never_fails "k" "HS256"
             sample_decode (Some "tok:alice") sample_db)))
             "tok:alice" alice);
      [reflexivity | discriminate | vm_compute; reflexivity].
Defined.

(* ================================================================== *)
(** ** Pagination *)
(* ================================================================== *)

(** X1. [get_pagination_params] accepts exactly the pages from 1 up
    with a page size between 1 and [max_per_page]; the dict it returns
    then holds the page, the page size and the offset
    [(page - 1) * per_page], and no other key. *)
Theorem pagination_accepts_iff (page per_page max_per_page : Z) :
  ((exists d, get_pagination_params page per_page max_per_page = Return d)
   <-> 1 <= page /\ 1 <= per_page <= max_per_page)
  /\ (forall d,
        get_pagination_params page per_page max_per_page = Return d ->
        d !! "page" = Some page
        /\ d !! "per_page" = Some per_page
        /\ d !! "skip" = Some ((page - 1) * per_page)
        /\ dom d = ({[ "page"; "per_page"; "skip" ]} : gset string)).
Proof.
  split.
  - run_pagination; split; intros Hyp;
      first [ lia | destruct Hyp as [d [=]] | eexists; reflexivity ].
  - run_pagination; intros d [= <-].
    split; [reflexivity|]. split; [reflexivity|]. split; [reflexivity|].
    rewrite !dom_insert_L, dom_singleton_L. set_solver.
Qed.

(** X2. On accepted parameters the windows of successive pages tile
    the rows: the first page starts at offset 0, no offset is
    negative, and the next page starts where this one ends. *)
Theorem pagination_pages_tile (page per_page max_per_page : Z) :
  1 <= page -> 1 <= per_page <= max_per_page ->
  skip_of (get_pagination_params 1 per_page max_per_page) = Some 0
  /\ exists s,
       skip_of (get_pagination_params page per_page max_per_page) = Some s
       /\ 0 <= s
       /\ skip_of (get_pagination_params (page + 1) per_page max_per_page)
          = Some (s + per_page).
Proof.
  intros Hpage Hsize. split.
  - run_pagination; try lia. reflexivity.
  - exists ((page - 1) * per_page). split; [|split].
    + run_pagination; try lia. reflexivity.
    + nia.
    + run_pagination; try lia. unfold skip_of.
      rewrite lookup_insert_ne, lookup_insert_ne, lookup_singleton_eq by done.
      f_equal. lia.
Qed.

Lemma pagination_pages_tile_witness :
  skip_of (get_pagination_params 3 20 100) = Some 40
  /\ skip_of (get_pagination_params 4 20 100) = Some (40 + 20).
Proof.
  destruct (pagination_pages_tile 3 20 100) as (_ & s & Hs & _ & Hnext);
    [lia | lia |].
  assert (Hs40 : s = 40) by (vm_compute in Hs; congruence).
  subst s. split; [exact Hs | exact Hnext].
Defined.

(** X3. Every rejection of [get_pagination_params] is a 422, and it
    reports the first rule broken, in the order: the page, the lower
    bound of the page size, the upper bound of the page size, whose
    message prints [max_per_page]. *)
Theorem pagination_rejection_order (page per_page max_per_page : Z) :
  (page < 1 ->
     get_pagination_params page per_page max_per_page
     = Raise (HTTPExc
         {| status_code := 422;
            detail := "El número de página debe ser mayor a 0";
            headers := None |}))
  /\ (1 <= page -> per_page < 1 ->
      get_pagination_params page per_page max_per_page
      = Raise (HTTPExc
          {| status_code := 422;
             detail := "Los registros por página deben ser mayor a 0";
             headers := None |}))
  /\ (1 <= page -> 1 <= per_page -> max_per_page < per_page ->
      get_pagination_params page per_page max_per_page
      = Raise (HTTPExc
          {| status_code := 422;
             detail := "Máximo " +:+ str max_per_page
                       +:+ " registros por página permitidos";
             headers := None |}))
  /\ (forall e,
        get_pagination_params page per_page max_per_page = Raise e ->
        exists h, e = HTTPExc h /\ status_code h = 422).
Proof.
  split; [|split; [|split]].
  - intros. run_pagination; try lia; reflexivity.
  - intros. run_pagination; try lia; reflexivity.
  - intros. run_pagination; try lia; reflexivity.
  - intros e. run_pagination; intros [= <-]; eexists; split; reflexivity.
Qed.

(** X4. The cap on the page size is the one the caller passes: with
    [max_per_page] below 1 every call is rejected, and any page size
    from 1 up is accepted once [max_per_page] is as large. *)
Theorem pagination_cap_is_an_argument (page per_page max_per_page : Z) :
  (max_per_page < 1 ->
     exists e, get_pagination_params page per_page max_per_page = Raise e)
  /\ (1 <= page -> 1 <= per_page ->
      exists d, get_pagination_params page per_page per_page = Return d).
Proof.
  split.
  - intros. run_pagination; try lia; eexists; reflexivity.
  - intros. run_pagination; try lia; eexists; reflexivity.
Qed.

(* ================================================================== *)
(** ** Identifiers *)
(* ================================================================== *)

(** X5. [validate_positive_int] returns its value unchanged exactly
    when the value is positive, 0 being rejected; a rejection is a 422
    whose detail starts with the name of the field, which is ID for
    [get_valid_id]; and a value that passed passes again. *)
Theorem positive_int_validation (value : Z) (field_name : string) :
  (0 < value <-> validate_positive_int value field_name = Return value)
  /\ (value <= 0 <->
      validate_positive_int value field_name
      = Raise (HTTPExc
          {| status_code := 422;
             detail := field_name +:+ " debe ser un número positivo";
             headers := None |}))
  /\ (value <= 0 <->
      get_valid_id value
      = Raise (HTTPExc
          {| status_code := 422;
             detail := "ID debe ser un número positivo";
             headers := None |}))
  /\ (forall v, get_valid_id value = Return v ->
        v = value /\ 0 < v /\ get_valid_id v = Return v).
Proof.
  unfold get_valid_id, validate_positive_int.
  destruct (Z.leb_spec value 0) as [Hle|Hgt].
  - split; [|split; [|split]]; try (split; intros Hyp);
      first [ reflexivity | lia | discriminate Hyp | idtac ].
    intros v [=].
  - split; [|split; [|split]]; try (split; intros Hyp);
      first [ reflexivity | lia | discriminate Hyp | idtac ].
    intros v [= <-]. split; [reflexivity|]. split; [lia|].
    destruct (Z.leb_spec value 0); [lia | reflexivity].
Qed.

(* ================================================================== *)
(** ** Common filters *)
(* ================================================================== *)

Section FiltersFacts.

Variable strip : string -> string.

(** X6. [get_common_filters] accepts exactly the two directions asc
    and desc, in lower case; any other direction is rejected with a
    422, whatever the other arguments. *)
Theorem filters_accept_asc_desc_only (active_only : bool)
    (search order_by : option string) (order_direction : string) :
  ((exists d, get_common_filters strip active_only search order_by
                order_direction = Return d)
   <-> order_direction = "asc" \/ order_direction = "desc")
  /\ (order_direction <> "asc" /\ order_direction <> "desc" <->
      get_common_filters strip active_only search order_by order_direction
      = Raise (HTTPExc
          {| status_code := 422;
             detail := "order_direction debe ser 'asc' o 'desc'";
             headers := None |})).
Proof.
  unfold get_common_filters.
  destruct (decide (order_direction ∈ ["asc"; "desc"])) as [Hin|Hout].
  - rewrite (bool_decide_eq_true_2 _ Hin). cbn [negb].
    assert (Hdir : order_direction = "asc" \/ order_direction = "desc")
      by (revert Hin; rewrite !elem_of_cons, elem_of_nil; tauto).
    split; split; intros Hyp.
    + exact Hdir.
    + eexists. reflexivity.
    + destruct Hyp, Hdir; contradiction.
    + discriminate Hyp.
  - rewrite (bool_decide_eq_false_2 _ Hout). cbn [negb].
    assert (Hdir : order_direction <> "asc" /\ order_direction <> "desc")
      by (revert Hout; rewrite !elem_of_cons, elem_of_nil; tauto).
    split; split; intros Hyp.
    + destruct Hyp as [d [=]].
    + destruct Hdir, Hyp; contradiction.
    + reflexivity.
    + exact Hdir.
Qed.

(** X7. The dict that [get_common_filters] returns has the four keys
    and no other; the flag, the ordering column and the direction are
    the arguments as given (the column is not checked); the search
    term is absent when the argument is absent or empty, and is the
    stripped argument otherwise. *)
Theorem filters_result (active_only : bool)
    (search order_by : option string) (order_direction : string)
    (d : gmap string value) :
  get_common_filters strip active_only search order_by order_direction
  = Return d ->
  d !! "active_only" = Some (VBool active_only)
  /\ d !! "order_by" = Some (value_of_optional order_by)
  /\ d !! "order_direction" = Some (VStr order_direction)
  /\ d !! "search"
     = Some (match search with
             | None => VNone
             | Some s => if decide (s = "") then VNone else VStr (strip s)
             end)
  /\ dom d = ({[ "active_only"; "search"; "order_by"; "order_direction" ]}
              : gset string).
Proof.
  unfold get_common_filters.
  destruct (negb _); [discriminate|]. intros [= <-].
  split; [reflexivity|]. split; [reflexivity|]. split; [reflexivity|].
  split.
  - rewrite lookup_insert_ne, lookup_insert_eq by done. f_equal.
    destruct search as [s|]; [|reflexivity]. unfold truthy.
    destruct (String.eqb_spec s ""); case_decide; try contradiction;
      reflexivity.
  - rewrite !dom_insert_L, dom_singleton_L. set_solver.
Qed.

End FiltersFacts.

Lemma filters_result_witness :
  (({[ "active_only" := VBool true; "search" := VStr "ana";
       "order_by" := VNone; "order_direction" := VStr "desc" ]}
    : gmap string value) !! "search") = Some (VStr "ana").
Proof.
  apply (filters_result (fun s => s) true (Some "ana") None "desc").
  reflexivity.
Defined.

(* ================================================================== *)
(** ** What an accepted check tells *)
(* ================================================================== *)

(** The permission check, run: the state is untouched, and the outcome
    follows the mapping, the three lookups and the level comparison. *)
Lemma permission_checker_run entity action min_level u db :
  permission_checker entity action min_level u db
  = (db,
     match role_mapping !! User.role u with
     | None =>
       Raise (HTTPExc
         {| status_code := HTTP_403_FORBIDDEN;
            detail := "Rol de usuario inválido: " +:+ str (User.role u);
            headers := None |})
     | Some name =>
       match find (template_filter name) (permission_templates db) with
       | None =>
         Raise (HTTPExc
           {| status_code := HTTP_403_FORBIDDEN;
              detail :=
                "No se encontró configuración de permisos para el rol "
                +:+ name;
              headers := None |})
       | Some t =>
         match find (permission_filter entity action) (permissions db) with
         | None =>
           Raise (HTTPExc
             {| status_code := HTTP_500_INTERNAL_SERVER_ERROR;
                detail := "Permiso no configurado: " +:+ entity +:+ ":"
                          +:+ action;
                headers := None |})
         | Some p =>
           match find (item_filter t p) (permission_template_items db) with
           | None =>
             Raise (HTTPExc
               {| status_code := HTTP_403_FORBIDDEN;
                  detail := "Tu rol (" +:+ name
                            +:+ ") no tiene permiso para: " +:+ entity
                            +:+ ":" +:+ action;
                  headers := None |})
           | Some i =>
             if PermissionTemplateItem.permission_level i <? min_level then
               Raise (HTTPExc
                 {| status_code := HTTP_403_FORBIDDEN;
                    detail :=
                      "Nivel de permiso insuficiente. Requiere nivel "
                      +:+ str min_level +:+ ", tienes nivel "
                      +:+ str (PermissionTemplateItem.permission_level i);
                    headers := None |})
             else Return u
           end
         end
       end
     end).
Proof.
  destruct (role_mapping !! User.role u) as [name|] eqn:Hrole.
  - destruct (find (template_filter name) (permission_templates db))
      as [t|] eqn:Ht.
    + destruct (find (permission_filter entity action) (permissions db))
        as [p|] eqn:Hp.
      * destruct (find (item_filter t p) (permission_template_items db))
          as [i|] eqn:Hi.
        -- apply (permission_checker_bound _ _ _ _ _ _ _ _ _ Hrole Ht Hp Hi).
        -- apply (permission_checker_unbound _ _ _ _ _ _ _ _ Hrole Ht Hp Hi).
      * apply (permission_checker_unregistered _ _ _ _ _ _ _ Hrole Ht Hp).
    + apply (permission_checker_no_template _ _ _ _ _ _ Hrole Ht).
  - apply (permission_checker_unmapped _ _ _ _ _ Hrole).
Qed.

(** What the three filters select. *)
Lemma template_filter_true name t :
  template_filter name t = true ->
  PermissionTemplate.role_name t = name
  /\ PermissionTemplate.is_active t = true.
Proof.
  unfold template_filter. intros H. apply andb_prop in H as [H1 H2].
  split; eapply bool_decide_eq_true_1; eassumption.
Qed.

Lemma permission_filter_true entity action p :
  permission_filter entity action p = true ->
  Permission.entity p = entity /\ Permission.action p = action.
Proof.
  unfold permission_filter. intros H. apply andb_prop in H as [H1 H2].
  split; eapply bool_decide_eq_true_1; eassumption.
Qed.

Lemma item_filter_true t p i :
  item_filter t p i = true ->
  PermissionTemplateItem.template_id i = PermissionTemplate.id t
  /\ PermissionTemplateItem.permission_id i = Permission.id p.
Proof.
  unfold item_filter. intros H. apply andb_prop in H as [H1 H2].
  split; eapply bool_decide_eq_true_1; eassumption.
Qed.

Lemma permission_checker_inv entity action min_level u db u' :
  result_of (permission_checker entity action min_level u db) = Return u' ->
  u' = u /\ granted entity action min_level u db.
Proof.
  rewrite permission_checker_run. unfold result_of. cbn [snd].
  destruct (role_mapping !! User.role u) as [name|] eqn:Hrole;
    [|discriminate].
  destruct (find _ (permission_templates db)) as [t|] eqn:Ht;
    [|discriminate].
  destruct (find _ (permissions db)) as [p|] eqn:Hp; [|discriminate].
  destruct (find _ (permission_template_items db)) as [i|] eqn:Hi;
    [|discriminate].
  destruct (Z.ltb_spec (PermissionTemplateItem.permission_level i) min_level);
    [discriminate|].
  intros [= <-]. split; [reflexivity|]. split.
  - destruct (Z_lt_le_dec (User.role u) 1) as [Hlow|Hlow].
    + assert (role_mapping !! User.role u = None)
        by (apply role_mapping_None; lia). congruence.
    + destruct (Z_lt_le_dec 5 (User.role u)) as [Hhigh|Hhigh]; [|lia].
      assert (role_mapping !! User.role u = None)
        by (apply role_mapping_None; lia). congruence.
  - apply find_some in Ht as [Hint Hft].
    apply find_some in Hp as [Hinp Hfp].
    apply find_some in Hi as [Hini Hfi].
    apply template_filter_true in Hft as [? ?].
    apply permission_filter_true in Hfp as [? ?].
    apply item_filter_true in Hfi as [? ?].
    exists name, t, p, i. repeat (split; [assumption|]). assumption.
Qed.

(** X8. A check of [require_permission] that returns, returns the
    principal it was given, and then the role of the principal is
    one of 1 to 5, an active template of the mapped name is in the
    database, the permission (entity, action) is registered, and an
    item binds the two at a level that is not below [min_level]. *)
Theorem permission_check_sound entity action min_level u db u' :
  result_of (require_permission entity action min_level u db) = Return u' ->
  u' = u /\ granted entity action min_level u db.
Proof. unfold require_permission. apply permission_checker_inv. Qed.

Lemma permission_check_sound_witness :
  granted "reports" "export" 4 alice sample_db.
Proof.
  apply (permission_check_sound "reports" "export" 4 alice sample_db alice).
  vm_compute. reflexivity.
Defined.

(** X9. Lowering [min_level] never turns an accepted permission check
    into a rejected one, and never changes a rejection that is not
    about the level: the only outcome that depends on [min_level] is
    the level comparison. *)
Theorem permission_check_monotone entity action min_level min_level'
    (u : User.t) (db : Db) :
  min_level' <= min_level ->
  (require_permission entity action min_level u db = (db, Return u) ->
   require_permission entity action min_level' u db = (db, Return u))
  /\ (forall e,
        require_permission entity action min_level' u db = (db, Raise e) ->
        exists e',
          require_permission entity action min_level u db = (db, Raise e')
          /\ raised_kind (Raise e' : outcome User.t)
             = raised_kind (Raise e : outcome User.t)).
Proof.
  intros Hle. unfold require_permission. rewrite !permission_checker_run.
  destruct (role_mapping !! User.role u) as [name|];
    [|split; [discriminate | intros e [= <-]; eexists; split; reflexivity]].
  destruct (find _ (permission_templates db)) as [t|];
    [|split; [discriminate | intros e [= <-]; eexists; split; reflexivity]].
  destruct (find _ (permissions db)) as [p|];
    [|split; [discriminate | intros e [= <-]; eexists; split; reflexivity]].
  destruct (find _ (permission_template_items db)) as [i|];
    [|split; [discriminate | intros e [= <-]; eexists; split; reflexivity]].
  destruct (Z.ltb_spec (PermissionTemplateItem.permission_level i) min_level);
    destruct (Z.ltb_spec (PermissionTemplateItem.permission_level i)
                min_level'); try lia.
  - split; [discriminate | intros e [= <-]; eexists; split; reflexivity].
  - split; [discriminate | intros e [=]].
  - split; [reflexivity | intros e [=]].
Qed.

Lemma permission_check_monotone_witness :
  require_permission "reports" "export" 1 alice sample_db
  = (sample_db, Return alice).
Proof.
  apply (permission_check_monotone "reports" "export" 4 1 alice sample_db);
    [lia | vm_compute; reflexivity].
Defined.

Lemma forbidden_is_not_configuration_error {A} (d : string) :
  raised_kind (Raise (HTTPExc {| status_code := HTTP_403_FORBIDDEN;
                                 detail := d;
                                 headers := None |}) : outcome A)
  <> Some ConfigurationError.
Proof. discriminate. Qed.

(** X10. A permission check fails with a 403 or with a 500 and with
    nothing else, and with the 500 exactly when the role is mapped,
    an active template of the mapped name exists and the permission
    (entity, action) is not registered. *)
Theorem permission_failure_statuses entity action min_level
    (u : User.t) (db : Db) :
  (forall e,
     result_of (require_permission entity action min_level u db) = Raise e ->
     exists h, e = HTTPExc h
               /\ (status_code h = 403 \/ status_code h = 500))
  /\ (raised_kind
        (result_of (require_permission entity action min_level u db))
      = Some ConfigurationError
      <-> exists name t,
            role_mapping !! User.role u = Some name
            /\ find (template_filter name) (permission_templates db) = Some t
            /\ find (permission_filter entity action) (permissions db)
               = None).
Proof.
  unfold require_permission. rewrite permission_checker_run.
  unfold result_of. cbn [snd].
  destruct (role_mapping !! User.role u) as [name|] eqn:Hrole.
  2: { split.
       - intros e [= <-]. eexists. split; [reflexivity | left; reflexivity].
       - split; [intros H; destruct (forbidden_is_not_configuration_error _ H)
                | intros (? & ? & [=] & _)]. }
  destruct (find (template_filter name) (permission_templates db))
    as [t|] eqn:Ht.
  2: { split.
       - intros e [= <-]. eexists. split; [reflexivity | left; reflexivity].
       - split; [intros H; destruct (forbidden_is_not_configuration_error _ H)
                | intros (? & ? & [= <-] & Ht' & _); congruence]. }
  destruct (find (permission_filter entity action) (permissions db))
    as [p|] eqn:Hp.
  2: { split.
       - intros e [= <-]. eexists. split; [reflexivity | right; reflexivity].
       - split; [intros _; exists name, t; repeat split; assumption
                | intros _; reflexivity]. }
  destruct (find _ (permission_template_items db)) as [i|].
  2: { split.
       - intros e [= <-]. eexists. split; [reflexivity | left; reflexivity].
       - split; [intros H; destruct (forbidden_is_not_configuration_error _ H)
                | intros (? & ? & _ & _ & [=])]. }
  destruct (_ <? _).
  - split.
    + intros e [= <-]. eexists. split; [reflexivity | left; reflexivity].
    + split; [intros H; destruct (forbidden_is_not_configuration_error _ H)
             | intros (? & ? & _ & _ & [=])].
  - split; [intros e [=]|].
    split; [discriminate | intros (? & ? & _ & _ & [=])].
Qed.

(** X11. The permission check reads nothing of the principal but the
    role: two principals of the same role get the same decision, each
    being returned as itself when accepted. The active flag is not
    read here; it is the resolver that rejects an inactive
    principal. *)
Theorem permission_check_reads_role_only entity action min_level
    (u1 u2 : User.t) (db : Db) :
  User.role u1 = User.role u2 ->
  result_of (require_permission entity action min_level u2 db)
  = match result_of (require_permission entity action min_level u1 db) with
    | Return _ => Return u2
    | Raise e => Raise e
    end.
Proof.
  intros Hrole. unfold require_permission. rewrite !permission_checker_run.
  unfold result_of. cbn [snd]. rewrite Hrole.
  repeat case_match; reflexivity.
Qed.

Lemma permission_check_reads_role_only_witness :
  User.is_active dave = false
  /\ result_of (require_permission "notes" "list" 0 dave sample_db)
     = Return dave.
Proof.
  split; [reflexivity|].
  apply (permission_check_reads_role_only "notes" "list" 0 carol dave
           sample_db).
  reflexivity.
Defined.




(** X13. The role gates are nested: a principal accepted at a
    threshold is accepted at every higher one, and one rejected at a
    threshold is rejected at every lower one; so what [require_admin]
    accepts, [require_manager] accepts, and so on to
    [require_employee] and [require_any_user]. *)
Theorem role_gates_nested (u : User.t) (db : Db) :
  (forall m m', m <= m' ->
     require_role m u db = (db, Return u) ->
     require_role m' u db = (db, Return u))
  /\ (forall m m', m <= m' ->
        raised_kind (result_of (require_role m' u db)) = Some Forbidden ->
        raised_kind (result_of (require_role m u db)) = Some Forbidden)
  /\ (require_admin u db = (db, Return u) ->
      require_manager u db = (db, Return u))
  /\ (require_manager u db = (db, Return u) ->
      require_employee u db = (db, Return u))
  /\ (require_employee u db = (db, Return u) ->
      require_any_user u db = (db, Return u)).
Proof.
  assert (Hup : forall m m', m <= m' ->
            require_role m u db = (db, Return u) ->
            require_role m' u db = (db, Return u)).
  { intros m m' Hle. run_checker.
    destruct (Z.gtb_spec (User.role u) m); [discriminate|].
    destruct (Z.gtb_spec (User.role u) m'); [lia | reflexivity]. }
  split; [exact Hup|]. split.
  - intros m m' Hle. run_checker. unfold result_of.
    destruct (Z.gtb_spec (User.role u) m'); [|discriminate].
    destruct (Z.gtb_spec (User.role u) m); [reflexivity | lia].
  - unfold require_admin, require_manager, require_employee,
      require_any_user.
    split; [|split]; apply Hup; lia.
Qed.

(* ================================================================== *)
(** ** The checks behind the resolver *)
(* ================================================================== *)

Section DependenciesFacts.

Variables (SECRET_KEY ALGORITHM : string).
Variable jwt_decode : string -> string -> list string -> option (gmap string Z).

Local Abbreviation resolve :=
  (get_current_user SECRET_KEY ALGORITHM jwt_decode).
Local Abbreviation resolve_optional :=
  (get_optional_current_user SECRET_KEY ALGORITHM jwt_decode).
Local Abbreviation role_guard :=
  (depends_role_checker SECRET_KEY ALGORITHM jwt_decode).
Local Abbreviation permission_guard :=
  (depends_permission_checker SECRET_KEY ALGORITHM jwt_decode).

(** A principal the resolver returns is a row of the table of users,
    active, whose id is the subject of the token. *)
Lemma get_current_user_inv (token : string) (db : Db) (u : User.t) :
  result_of (resolve token db) = Return u ->
  (exists payload,
     jwt_decode token SECRET_KEY [ALGORITHM] = Some payload
     /\ payload !! "sub" = Some (User.id u))
  /\ In u (users db)
  /\ User.is_active u = true.
Proof.
  rewrite get_current_user_run. unfold result_of. cbn [snd].
  destruct (jwt_decode token SECRET_KEY [ALGORITHM]) as [payload|];
    [|discriminate].
  destruct (payload !! "sub") as [user_id|] eqn:Hsub; [|discriminate].
  destruct (find _ (users db)) as [found|] eqn:Hfind; [|discriminate].
  destruct (User.is_active found) eqn:Hactive; [|discriminate].
  intros [= ->]. apply find_some in Hfind as [Hin Hid].
  apply bool_decide_eq_true_1 in Hid. subst user_id.
  split; [exists payload; auto|]. split; assumption.
Qed.

Lemma resolve_state (token : string) (db : Db) :
  resolve token db = (db, result_of (resolve token db)).
Proof. rewrite get_current_user_run. reflexivity. Qed.

(** X14. Authentication comes first: when the resolver rejects the
    token, the role gate and the permission check behind it reject
    the request with the same exception, a 401 or the 403 of an
    inactive principal, whatever the threshold or the permission. *)
Theorem authentication_comes_first (token : string) (db : Db) (e : exn) :
  result_of (resolve token db) = Raise e ->
  (forall minimum_role, role_guard minimum_role token db = (db, Raise e))
  /\ (forall entity action min_level,
        permission_guard entity action min_level token db = (db, Raise e))
  /\ (e = HTTPExc credentials_exception
      \/ e = HTTPExc {| status_code := 403;
                        detail := "Usuario inactivo";
                        headers := None |}).
Proof.
  intros Hfail.
  unfold depends_role_checker, depends_permission_checker, bind.
  rewrite resolve_state, Hfail.
  split; [reflexivity|]. split; [reflexivity|].
  revert Hfail. rewrite get_current_user_run. unfold result_of. cbn [snd].
  repeat case_match; intros [= <-]; auto.
Qed.

(** X15. A request that passes the permission check behind the
    resolver carries a token whose subject is the id of the principal
    returned; the principal is a row of the table of users and is
    active; and the rows that grant the permission at [min_level] or
    above are in the database. *)
Theorem guarded_permission_sound entity action min_level
    (token : string) (db : Db) (u : User.t) :
  result_of (permission_guard entity action min_level token db) = Return u ->
  (exists payload,
     jwt_decode token SECRET_KEY [ALGORITHM] = Some payload
     /\ payload !! "sub" = Some (User.id u))
  /\ In u (users db)
  /\ User.is_active u = true
  /\ granted entity action min_level u db.
Proof.
  unfold depends_permission_checker, bind. rewrite resolve_state.
  destruct (result_of (resolve token db)) as [u0|e] eqn:Hres;
    [|discriminate].
  intros Hcheck. apply permission_checker_inv in Hcheck as [-> Hgranted].
  apply get_current_user_inv in Hres as (Hsub & Hin & Hactive).
  auto.
Qed.

(** X16. A request that passes the role gate behind the resolver
    carries a token whose subject is the id of the principal
    returned; the principal is a row of the table of users, is
    active, and its role is not above the threshold. *)
Theorem guarded_role_sound (minimum_role : Z)
    (token : string) (db : Db) (u : User.t) :
  result_of (role_guard minimum_role token db) = Return u ->
  (exists payload,
     jwt_decode token SECRET_KEY [ALGORITHM] = Some payload
     /\ payload !! "sub" = Some (User.id u))
  /\ In u (users db)
  /\ User.is_active u = true
  /\ User.role u <= minimum_role.
Proof.
  unfold depends_role_checker, bind. rewrite resolve_state.
  destruct (result_of (resolve token db)) as [u0|e] eqn:Hres;
    [|discriminate].
  run_checker. unfold result_of. cbn [snd].
  destruct (Z.gtb_spec (User.role u0) minimum_role); [discriminate|].
  intros [= ->].
  apply get_current_user_inv in Hres as (Hsub & Hin & Hactive).
  auto.
Qed.

(** X17. The optional resolver returns a principal exactly when the
    token is present, is not the empty string, and [get_current_user]
    returns that principal for it; so a principal it returns is a row
    of the table of users and is active. An empty token gives the
    absent result without being decoded. *)
Theorem optional_resolver_sound (token : option string) (db : Db)
    (u : User.t) :
  (resolve_optional token db = (db, Return (Some u))
   <-> exists tok, token = Some tok /\ tok <> ""
                   /\ result_of (resolve tok db) = Return u)
  /\ (resolve_optional token db = (db, Return (Some u)) ->
      In u (users db) /\ User.is_active u = true)
  /\ resolve_optional (Some "") db = (db, Return None).
Proof.
  assert (Hiff : resolve_optional token db = (db, Return (Some u))
            <-> exists tok, token = Some tok /\ tok <> ""
                            /\ result_of (resolve tok db) = Return u).
  { unfold get_optional_current_user, truthy.
    destruct token as [tok|].
    2: { split; [discriminate | intros (? & [=] & _)]. }
    destruct (String.eqb_spec tok "") as [->|Hne]; cbn [negb].
    { split; [discriminate | intros (? & [= <-] & Hne & _); contradiction]. }
    unfold try_except, bind, ret. rewrite resolve_state.
    pose proof (get_current_user_raises SECRET_KEY ALGORITHM jwt_decode
                  tok db) as Hexn.
    destruct (result_of (resolve tok db)) as [u0|e] eqn:Hres.
    - split.
      + intros [= ->]. exists tok.
        split; [reflexivity|]. split; assumption.
      + intros (? & [= <-] & _ & Hres'). congruence.
    - rewrite (Hexn e eq_refl). split; [discriminate|].
      intros (? & [= <-] & _ & Hres'). congruence. }
  split; [exact Hiff|]. split; [|reflexivity].
  intros Hsome. apply Hiff in Hsome as (tok & _ & _ & Hres).
  apply get_current_user_inv in Hres as (_ & Hin & Hactive). auto.
Qed.

End DependenciesFacts.

Lemma authentication_comes_first_witness :
  depends_permission_checker "k" "HS256" sample_decode
    "notes" "list" 0 "tok:dave" sample_db
  = (sample_db, Raise (HTTPExc {| status_code := 403;
                                  detail := "Usuario inactivo";
                                  headers := None |})).
Proof.
  apply (authentication_comes_first "k" "HS256" sample_decode
           "tok:dave" sample_db).
  vm_compute. reflexivity.
Defined.

Lemma guarded_permission_sound_witness :
  In alice (users sample_db)
  /\ User.is_active alice = true
  /\ granted "reports" "export" 4 alice sample_db.
Proof.
  apply (guarded_permission_sound "k" "HS256" sample_decode
           "reports" "export" 4 "tok:alice" sample_db alice).
  vm_compute. reflexivity.
Defined.

Lemma guarded_role_sound_witness :
  In alice (users sample_db)
  /\ User.is_active alice = true
  /\ User.role alice <= 1.
Proof.
  apply (guarded_role_sound "k" "HS256" sample_decode
           1 "tok:alice" sample_db alice).
  vm_compute. reflexivity.
Defined.
